(** * trace_utils: a logging HTTP transport and its client factory

    A shallow embedding of [trace_utils.py].  The module wraps an inner
    HTTP transport: every dispatched request is recorded (headers, decoded
    body), handed to the inner transport, and the response is recorded and
    re-emitted without its [content-encoding] header.

    Layout of the development:
    - bytes, text and the three text codecs the embedding knows
      ([bytes.decode] with the [strict] and [replace] error handlers);
    - [httpx.Headers] as the list of raw header lines, Python dictionaries
      as insertion-ordered association lists;
    - a state-and-exception monad over the world the transport acts on;
    - [LoggingTransport.handle_async_request];
    - a small object heap for [LoggingAsyncClient] and [async_clients]. *)

From Stdlib Require Import ZArith NArith List String Ascii Bool Lia.
From Stdlib.Strings Require Import Byte.
From stdpp Require Import base gmap strings list fin_maps.
Import ListNotations.

Local Open Scope string_scope.
Local Open Scope list_scope.

(** ** Bytes and text *)

(** Python [bytes]: a sequence of octets. *)
Definition bytes := list byte.

(** Python [str]: a sequence of Unicode code points. *)
Definition codepoint := N.
Definition text := list codepoint.

(** The text of an ASCII literal. *)
Definition text_of_string (s : string) : text :=
  List.map Byte.to_N (list_byte_of_string s).

Definition bytes_of_string (s : string) : bytes := list_byte_of_string s.

(** U+FFFD, what the [replace] error handler puts in place of a malformed
    sequence. *)
Definition REPLACEMENT_CHARACTER : codepoint := 0xFFFD%N.

(** ** Exceptions and results *)

Inductive exn :=
| UnicodeDecodeError (encoding : string) (start : nat) (reason : string)
| LookupError (encoding : string)
| TransportError (kind : string) (message : string).

Inductive result (A : Type) :=
| Ok (a : A)
| Raise (e : exn).
Arguments Ok {A} a.
Arguments Raise {A} e.

(** ** Codecs *)

(** The [errors] argument of [bytes.decode]. *)
Inductive errors := Strict | Replace.

(** What a decoder does at a malformed sequence starting at byte [pos]:
    the strict handler raises, the replace handler emits U+FFFD and the
    decoder goes on with [rest]. *)
Definition on_error (enc : string) (h : errors) (pos : nat) (reason : string)
    (rest : result text) : result text :=
  match h with
  | Strict => Raise (UnicodeDecodeError enc pos reason)
  | Replace =>
      match rest with
      | Ok t => Ok (REPLACEMENT_CHARACTER :: t)
      | Raise e => Raise e
      end
  end.

Definition emit (c : codepoint) (rest : result text) : result text :=
  match rest with
  | Ok t => Ok (c :: t)
  | Raise e => Raise e
  end.

(** *** UTF-8 *)

(** A multi-byte sequence in progress: [need] continuation bytes are still
    expected, [acc] holds the bits read so far, the next byte must lie in
    [lo..hi] (the first continuation byte has a narrower range after E0,
    ED, F0 and F4, which rules out overlong forms, surrogates and code
    points above U+10FFFF), and the sequence began at byte [began]. *)
Record utf8_pending := {
  need : nat;
  acc : N;
  lo : N;
  hi : N;
  began : nat
}.

Inductive utf8_lead :=
| Single (c : codepoint)
| Lead (need : nat) (bits : N) (lo hi : N)
| InvalidStart.

Definition utf8_classify (b : N) : utf8_lead :=
  (if b <? 0x80 then Single b
   else if b <? 0xC2 then InvalidStart
   else if b <? 0xE0 then Lead 1 (N.land b 0x1F) 0x80 0xBF
   else if b =? 0xE0 then Lead 2 (N.land b 0x0F) 0xA0 0xBF
   else if b =? 0xED then Lead 2 (N.land b 0x0F) 0x80 0x9F
   else if b <? 0xF0 then Lead 2 (N.land b 0x0F) 0x80 0xBF
   else if b =? 0xF0 then Lead 3 (N.land b 0x07) 0x90 0xBF
   else if b <? 0xF4 then Lead 3 (N.land b 0x07) 0x80 0xBF
   else if b =? 0xF4 then Lead 3 (N.land b 0x07) 0x80 0x8F
   else InvalidStart)%N.

Definition utf8_name : string := "utf-8".

(** The decoder reads one byte at a time.  [st] is the sequence in
    progress, if any; [pos] is the index of the byte at the head of the
    input.  A byte that cannot continue the sequence in progress ends it
    as malformed and is then read again as the start of a new one. *)
Fixpoint utf8_decode_from (h : errors) (st : option utf8_pending) (pos : nat)
    (bs : bytes) : result text :=
  match bs with
  | [] =>
      match st with
      | None => Ok []
      | Some p => on_error utf8_name h (began p) "unexpected end of data" (Ok [])
      end
  | b :: rest =>
      let n := Byte.to_N b in
      let fresh_start (k : result text -> result text) :=
        match utf8_classify n with
        | Single c => k (emit c (utf8_decode_from h None (S pos) rest))
        | Lead nd bits l u =>
            k (utf8_decode_from h
                 (Some {| need := nd; acc := bits; lo := l; hi := u; began := pos |})
                 (S pos) rest)
        | InvalidStart =>
            k (on_error utf8_name h pos "invalid start byte"
                 (utf8_decode_from h None (S pos) rest))
        end in
      match st with
      | None => fresh_start (fun r => r)
      | Some p =>
          if ((lo p <=? n) && (n <=? hi p))%N then
            let a := (N.lor (N.shiftl (acc p) 6) (N.land n 0x3F))%N in
            match need p with
            | 0%nat | 1%nat => emit a (utf8_decode_from h None (S pos) rest)
            | S m =>
                utf8_decode_from h
                  (Some {| need := m; acc := a; lo := 0x80%N; hi := 0xBF%N;
                           began := began p |})
                  (S pos) rest
            end
          else
            match h with
            | Strict =>
                Raise (UnicodeDecodeError utf8_name (began p) "invalid continuation byte")
            | Replace =>
                fresh_start (emit REPLACEMENT_CHARACTER)
            end
      end
  end.

Definition utf8_decode (h : errors) (bs : bytes) : result text :=
  utf8_decode_from h None 0 bs.

(** *** ASCII and Latin-1 *)

Fixpoint ascii_decode_from (h : errors) (pos : nat) (bs : bytes) : result text :=
  match bs with
  | [] => Ok []
  | b :: rest =>
      let n := Byte.to_N b in
      if (n <? 0x80)%N then emit n (ascii_decode_from h (S pos) rest)
      else on_error "ascii" h pos "ordinal not in range(128)"
             (ascii_decode_from h (S pos) rest)
  end.

Definition latin1_decode (bs : bytes) : text := List.map Byte.to_N bs.

(** *** The codec registry *)

Inductive codec := UTF_8 | ASCII | LATIN_1.

Definition lower_ascii (c : ascii) : ascii :=
  let n := nat_of_ascii c in
  if ((65 <=? n) && (n <=? 90))%nat then ascii_of_nat (n + 32) else c.

(** [str.lower] on the ASCII part of a string. *)
Fixpoint lower (s : string) : string :=
  match s with
  | EmptyString => EmptyString
  | String c s' => String (lower_ascii c) (lower s')
  end.

(** Codec names are compared after lower-casing, with hyphens and spaces
    read as underscores. *)
Fixpoint normalize_encoding (s : string) : string :=
  match s with
  | EmptyString => EmptyString
  | String c s' =>
      let c' := lower_ascii c in
      String (if (Ascii.eqb c' "-" || Ascii.eqb c' " ")%bool then "_"%char else c')
             (normalize_encoding s')
  end.

(** The registry of text encodings, restricted to the three codecs
    decoded above and their usual aliases.  No other name is the name of
    a text encoding here. *)
Definition codec_aliases : list (string * codec) :=
  [ ("utf_8", UTF_8); ("utf8", UTF_8); ("utf", UTF_8); ("u8", UTF_8);
    ("ascii", ASCII); ("us_ascii", ASCII); ("646", ASCII);
    ("latin_1", LATIN_1); ("latin1", LATIN_1); ("iso_8859_1", LATIN_1);
    ("iso8859_1", LATIN_1); ("l1", LATIN_1) ].

Fixpoint assoc {A} (k : string) (l : list (string * A)) : option A :=
  match l with
  | [] => None
  | (k', a) :: l' => if String.eqb k' k then Some a else assoc k l'
  end.

Definition codecs_lookup (name : string) : option codec :=
  assoc (normalize_encoding name) codec_aliases.

Definition codec_decode (c : codec) (h : errors) (bs : bytes) : result text :=
  match c with
  | UTF_8 => utf8_decode h bs
  | ASCII => ascii_decode_from h 0 bs
  | LATIN_1 => Ok (latin1_decode bs)
  end.

(** [bs.decode(encoding, errors=h)]: the codec is looked up first; a name
    that is not the name of a text encoding raises [LookupError] whatever
    the error handler. *)
Definition bytes_decode (bs : bytes) (encoding : string) (h : errors) : result text :=
  match codecs_lookup encoding with
  | Some c => codec_decode c h bs
  | None => Raise (LookupError encoding)
  end.


(** ** HTTP messages *)

(** [httpx.Headers]: the header lines in arrival order, name and value as
    received.  Names are matched case-insensitively and may repeat. *)
Definition Headers := list (string * string).

(** A Python [dict] from [str] to [str]: keys are unique and keep their
    insertion order. *)
Definition dict := list (string * string).

(** [a + ", " + b]. *)
Definition join_step (a b : string) : string := String.append a (String.append ", " b).

(** [d[k] += ", " + v] when [k] is already a key, [d[k] = v] otherwise. *)
Fixpoint dict_merge (k v : string) (d : dict) : dict :=
  match d with
  | [] => [(k, v)]
  | (k', v') :: d' =>
      if String.eqb k' k then (k', join_step v' v) :: d'
      else (k', v') :: dict_merge k v d'
  end.

(** [headers.items()]: one entry per lower-cased name, the values of a
    repeated name joined by a comma.  [dict(headers)] has the same
    entries. *)
Definition Headers_items (h : Headers) : dict :=
  fold_left (fun d kv => dict_merge (lower (fst kv)) (snd kv) d) h [].

(** [httpx.Headers(d)]: one header line per entry. *)
Definition Headers_of_dict (d : dict) : Headers := d.

(** [name in headers]. *)
Definition Headers_contains (name : string) (h : Headers) : bool :=
  existsb (fun kv => String.eqb (lower (fst kv)) (lower name)) h.

(** [", ".join(vs)] for a non-empty [vs], the empty string otherwise. *)
Definition join_comma (vs : list string) : string :=
  match vs with
  | [] => EmptyString
  | v :: vs' => fold_left join_step vs' v
  end.

(** The values of the header lines whose lower-cased name is [k]. *)
Definition Headers_values (k : string) (h : Headers) : list string :=
  List.map snd (List.filter (fun kv => String.eqb (lower (fst kv)) k) h).

(** [headers.get(name)]: the values of all lines of that name, joined. *)
Definition Headers_get (name : string) (h : Headers) : option string :=
  match Headers_values (lower name) h with
  | [] => None
  | vs => Some (join_comma vs)
  end.

(** The value under a key once the values [vs] have been merged into
    it, one after the other. *)
Definition merged (o : option string) (vs : list string) : option string :=
  match o, vs with
  | Some v0, _ => Some (fold_left join_step vs v0)
  | None, [] => None
  | None, v :: vs' => Some (fold_left join_step vs' v)
  end.

(** A well-formed dictionary of headers: keys are lower-case and unique. *)
Definition lower_keys (d : dict) : Prop :=
  NoDup (List.map fst d) /\ Forall (fun kv => lower (fst kv) = fst kv) d.

Definition Extensions := list (string * bytes).

Record Request := {
  url : string;
  req_headers : Headers;
  req_content : bytes
}.

(** What the transport reads from the response of the inner transport:
    [content] is what [aread()] returns and [encoding] the value of the
    [encoding] property. *)
Record InnerResponse := {
  status_code : Z;
  headers : Headers;
  content : bytes;
  encoding : option string;
  extensions : Extensions
}.

(** The response the transport builds, by the arguments it is built from. *)
Record Response := {
  resp_status_code : Z;
  resp_headers : Headers;
  resp_content : bytes;
  resp_request : Request;
  resp_extensions : Extensions
}.

(** ** The captured exchange *)

Record LoggingTransport := {
  request_headers : dict;
  request_content : option text;
  response_headers : dict;
  response_content : option text
}.

(** [LoggingTransport.__init__]: nothing captured yet. *)
Definition LoggingTransport_init : LoggingTransport :=
  {| request_headers := [];
     request_content := None;
     response_headers := [];
     response_content := None |}.

(** ** Log records *)

Inductive level := INFO.

Inductive message :=
| Request_URL (u : string)
| Request_Headers (d : dict)
| Request_Content (c : option text)
| Response_Headers (d : dict)
| Response_Content (c : option text).

Definition record := (level * message)%type.

(** Truth value of a [bytes] object: empty is false. *)
Definition truthy (b : bytes) : bool :=
  match b with [] => false | _ :: _ => true end.

(** [s or default] for an optional string: [None] and the empty string
    are both false. *)
Definition or_default (s : option string) (default : string) : string :=
  match s with
  | None => default
  | Some EmptyString => default
  | Some s' => s'
  end.

Definition content_encoding : string := "content-encoding".

(** The dictionary comprehension of [handle_async_request]. *)
Definition headers_without_encoding (h : Headers) : dict :=
  List.filter (fun kv => negb (String.eqb (lower (fst kv)) content_encoding))
    (Headers_items h).

(** Field updates of the captured exchange ([self.f = v]). *)
Definition set_request_headers (d : dict) (t : LoggingTransport) : LoggingTransport :=
  {| request_headers := d;
     request_content := request_content t;
     response_headers := response_headers t;
     response_content := response_content t |}.

Definition set_request_content (c : option text) (t : LoggingTransport) : LoggingTransport :=
  {| request_headers := request_headers t;
     request_content := c;
     response_headers := response_headers t;
     response_content := response_content t |}.

Definition set_response_headers (d : dict) (t : LoggingTransport) : LoggingTransport :=
  {| request_headers := request_headers t;
     request_content := request_content t;
     response_headers := d;
     response_content := response_content t |}.

Definition set_response_content (c : option text) (t : LoggingTransport) : LoggingTransport :=
  {| request_headers := request_headers t;
     request_content := request_content t;
     response_headers := response_headers t;
     response_content := c |}.

(** [request.content.decode("utf-8") if request.content else None]. *)
Definition decode_request_content (request : Request) : result (option text) :=
  if truthy (req_content request)
  then match bytes_decode (req_content request) "utf-8" Strict with
       | Ok t => Ok (Some t)
       | Raise e => Raise e
       end
  else Ok None.

(** [raw_response_bytes.decode(response.encoding or "utf-8", errors="replace")]. *)
Definition decode_response_content (response : InnerResponse) : result text :=
  bytes_decode (content response) (or_default (encoding response) "utf-8") Replace.

(** The response handed back to the caller. *)
Definition reemit (request : Request) (response : InnerResponse) : Response :=
  {| resp_status_code := status_code response;
     resp_headers := Headers_of_dict (headers_without_encoding (headers response));
     resp_content := content response;
     resp_request := request;
     resp_extensions := extensions response |}.

(** ** The transport *)

Section Transport.

(** The inner transport: its own state [I] and what its
    [handle_async_request] does with a request, a response or an
    exception together with its next state. *)
Context {I : Type}.
Variable inner_handle_async_request : Request -> I -> result InnerResponse * I.

(** The world a dispatch acts on: the transport's captured fields, the
    inner transport, the requests handed to the inner transport so far
    and the records given to the logger so far (oldest first). *)
Record World := {
  self : LoggingTransport;
  inner : I;
  dispatched : list Request;
  logged : list record
}.

(** State and exceptions. *)
Definition M (A : Type) : Type := World -> result A * World.

Definition ret {A} (a : A) : M A := fun w => (Ok a, w).

Definition bind {A B} (m : M A) (k : A -> M B) : M B :=
  fun w =>
    match m w with
    | (Ok a, w') => k a w'
    | (Raise e, w') => (Raise e, w')
    end.

Definition lift {A} (r : result A) : M A := fun w => (r, w).

Notation "'let*' x ':=' m 'in' k" := (bind m (fun x => k))
  (at level 10, x name, m at level 100, k at level 200).
Notation "'run' m 'in' k" := (bind m (fun _ => k))
  (at level 10, m at level 100, k at level 200).

Definition get_self : M LoggingTransport := fun w => (Ok (self w), w).

Definition assign (f : LoggingTransport -> LoggingTransport) : M unit :=
  fun w =>
    (Ok tt, {| self := f (self w); inner := inner w;
               dispatched := dispatched w; logged := logged w |}).

Definition logger_info (m : message) : M unit :=
  fun w =>
    (Ok tt, {| self := self w; inner := inner w;
               dispatched := dispatched w; logged := logged w ++ [(INFO, m)] |}).

(** [await self.inner.handle_async_request(request)]. *)
Definition await_inner (request : Request) : M InnerResponse :=
  fun w =>
    let (r, i) := inner_handle_async_request request (inner w) in
    (r, {| self := self w; inner := i;
           dispatched := dispatched w ++ [request]; logged := logged w |}).

Definition handle_async_request (request : Request) : M Response :=
  run assign (set_request_headers (Headers_items (req_headers request))) in
  let* c := lift (decode_request_content request) in
  run assign (set_request_content c) in
  run logger_info (Request_URL (url request)) in
  let* s := get_self in
  run logger_info (Request_Headers (request_headers s)) in
  let* s := get_self in
  run logger_info (Request_Content (request_content s)) in
  let* response := await_inner request in
  (* raw_response_bytes = await response.aread(): [content response] *)
  run assign (set_response_headers (Headers_items (headers response))) in
  let* t := lift (decode_response_content response) in
  run assign (set_response_content (Some t)) in
  let* s := get_self in
  run logger_info (Response_Headers (response_headers s)) in
  let* s := get_self in
  run logger_info (Response_Content (response_content s)) in
  ret (reemit request response).

End Transport.

Arguments World I : clear implicits.
Arguments M I A : clear implicits.

(** ** Inner transports to run the code on *)

(** Answers every request with the same response. *)
Definition constant_transport (r : InnerResponse) : Request -> unit -> result InnerResponse * unit :=
  fun _ _ => (Ok r, tt).

(** Fails on every request. *)
Definition failing_transport (e : exn) : Request -> unit -> result InnerResponse * unit :=
  fun _ _ => (Raise e, tt).

(** Plays a script: each request takes the next outcome; an exhausted
    script fails with a connection error. *)
Definition scripted_transport :
    Request -> list (result InnerResponse) -> result InnerResponse * list (result InnerResponse) :=
  fun _ script =>
    match script with
    | [] => (Raise (TransportError "ConnectError" "no more responses"), [])
    | r :: script' => (r, script')
    end.

Definition new_world {I} (i : I) : World I :=
  {| self := LoggingTransport_init; inner := i; dispatched := []; logged := [] |}.

Definition get_request (u : string) (h : Headers) : Request :=
  {| url := u; req_headers := h; req_content := [] |}.

Definition post_request (u : string) (h : Headers) (body : bytes) : Request :=
  {| url := u; req_headers := h; req_content := body |}.

Definition gzip_response : InnerResponse :=
  {| status_code := 200;
     headers := [("Content-Encoding", "gzip"); ("x-id", "42")];
     content := bytes_of_string "hello";
     encoding := Some "utf-8";
     extensions := [("http_version", bytes_of_string "HTTP/1.1")] |}.


Definition chat_request : Request :=
  post_request "https://example.openai.azure.com/openai/chat"
    [("Content-Type", "application/json"); ("api-key", "secret")]
    (bytes_of_string "{}").

(** A request whose one-byte body, FF, is not UTF-8. *)
Definition undecodable_request : Request :=
  post_request "https://example.openai.azure.com/openai/chat"
    [("Content-Type", "application/octet-stream")]
    [xff].

(** A response that declares [hex] as its charset: a name that is not
    the name of a text encoding. *)
Definition hex_charset_response : InnerResponse :=
  {| status_code := 200;
     headers := [("Content-Type", "text/plain; charset=hex")];
     content := bytes_of_string "hello";
     encoding := Some "hex";
     extensions := [] |}.

(** A response whose body, [h] FF [i], is not UTF-8, with no declared
    encoding. *)
Definition malformed_response : InnerResponse :=
  {| status_code := 200;
     headers := [("x-id", "7")];
     content := ["h"%byte; xff; "i"%byte];
     encoding := None;
     extensions := [] |}.

Definition connect_error : exn := TransportError "ConnectError" "connection refused".

(** Two exchanges: the first is answered, the second fails. *)
Definition answered_then_failing : list (result InnerResponse) :=
  [Ok gzip_response; Raise connect_error].

(** A world in which an exchange has been captured already and the
    inner transport has one more response to give. *)
Definition world_after_an_exchange : World (list (result InnerResponse)) :=
  {| self := {| request_headers := [("accept", "*/*")];
                request_content := None;
                response_headers := [("x-id", "42")];
                response_content := Some (text_of_string "hello") |};
     inner := [Ok malformed_response];
     dispatched := [];
     logged := [] |}.

(** Answers every request with the request's own body, declared UTF-8. *)
Definition echo_response (request : Request) : InnerResponse :=
  {| status_code := 200;
     headers := [("Content-Type", "application/json; charset=utf-8")];
     content := req_content request;
     encoding := Some "utf-8";
     extensions := [] |}.

Definition echo_transport : Request -> unit -> result InnerResponse * unit :=
  fun request _ => (Ok (echo_response request), tt).

(** The records a dispatch gives the logger before it reaches the inner
    transport, and those it gives once the response is captured. *)
Definition request_records (request : Request) (c : option text) : list record :=
  [ (INFO, Request_URL (url request));
    (INFO, Request_Headers (Headers_items (req_headers request)));
    (INFO, Request_Content c) ].

Definition response_records (response : InnerResponse) (t : text) : list record :=
  [ (INFO, Response_Headers (Headers_items (headers response)));
    (INFO, Response_Content (Some t)) ].

(** ** Objects and the client factory *)

(** Objects live in a heap and are known by their location, so that two
    references can be told to be to the same instance. *)
Definition loc := positive.

Inductive object :=
| AsyncHTTPTransport
| LoggingTransport_object (inner_ref : loc) (captured : LoggingTransport)
| LoggingAsyncClient (logging_transport : loc)
| AsyncAzureOpenAI (azure_endpoint api_key api_version : string) (http_client : loc).

Section Runtime.

(** The network behind [httpx.AsyncHTTPTransport]: its state and what
    sending a request over it gives. *)
Context {Net : Type}.
Variable network_send : Request -> Net -> result InnerResponse * Net.

(** [sent] lists the requests put on the network so far. *)
Record Runtime := {
  heap : gmap loc object;
  net : Net;
  sent : list Request;
  logs : list record
}.

Definition Init (A : Type) : Type := Runtime -> A * Runtime.

Definition alloc (o : object) : Init loc :=
  fun rt =>
    let l := fresh (dom (heap rt)) in
    (l, {| heap := <[l := o]> (heap rt); net := net rt;
           sent := sent rt; logs := logs rt |}).

(** [x or httpx.AsyncHTTPTransport()]: an object is true, [None] is not. *)
Definition or_AsyncHTTPTransport (x : option loc) : Init loc :=
  match x with
  | Some l => fun rt => (l, rt)
  | None => alloc AsyncHTTPTransport
  end.

(** [LoggingTransport(inner)]. *)
Definition LoggingTransport_new (inner : option loc) : Init loc :=
  fun rt =>
    let (i, rt1) := or_AsyncHTTPTransport inner rt in
    alloc (LoggingTransport_object i LoggingTransport_init) rt1.

(** [LoggingAsyncClient(transport=...)]; the other arguments go to
    [httpx.AsyncClient] untouched and are left out. *)
Definition LoggingAsyncClient_new (transport : option loc) : Init loc :=
  fun rt =>
    let (t, rt1) := or_AsyncHTTPTransport transport rt in
    let (lt, rt2) := LoggingTransport_new (Some t) rt1 in
    alloc (LoggingAsyncClient lt) rt2.

Definition async_clients (endpoint key api_version : string) : Init (loc * loc) :=
  fun rt =>
    let (logging_async_client, rt1) := LoggingAsyncClient_new None rt in
    let (client, rt2) :=
      alloc (AsyncAzureOpenAI endpoint key api_version logging_async_client) rt1 in
    ((client, logging_async_client), rt2).

(** The captured exchange behind a [LoggingAsyncClient]. *)
Definition captured_of (client : loc) (rt : Runtime) : option LoggingTransport :=
  match heap rt !! client with
  | Some (LoggingAsyncClient lt) =>
      match heap rt !! lt with
      | Some (LoggingTransport_object _ c) => Some c
      | _ => None
      end
  | _ => None
  end.

(** The four read-only properties of [LoggingAsyncClient]. *)
Definition client_request_headers (client : loc) (rt : Runtime) : option dict :=
  request_headers <$> captured_of client rt.
Definition client_request_content (client : loc) (rt : Runtime) : option (option text) :=
  request_content <$> captured_of client rt.
Definition client_response_headers (client : loc) (rt : Runtime) : option dict :=
  response_headers <$> captured_of client rt.
Definition client_response_content (client : loc) (rt : Runtime) : option (option text) :=
  response_content <$> captured_of client rt.

(** A request issued through the HTTP client of an SDK client goes
    through the client's [LoggingTransport]; the case modelled is the
    one [async_clients] sets up, where the inner transport is the
    network transport. *)
Definition send (client : loc) (request : Request) (rt : Runtime)
    : option (result Response * Runtime) :=
  match heap rt !! client with
  | Some (LoggingAsyncClient lt) =>
      match heap rt !! lt with
      | Some (LoggingTransport_object it c) =>
          match heap rt !! it with
          | Some AsyncHTTPTransport =>
              let (out, w) :=
                handle_async_request network_send request
                  {| self := c; inner := net rt;
                     dispatched := sent rt; logged := logs rt |} in
              Some (out,
                    {| heap := <[lt := LoggingTransport_object it (self w)]> (heap rt);
                       net := inner w;
                       sent := dispatched w;
                       logs := logged w |})
          | _ => None
          end
      | _ => None
      end
  | _ => None
  end.

End Runtime.

Arguments Runtime Net : clear implicits.
Arguments Init Net A : clear implicits.

Definition empty_runtime {Net} (n : Net) : Runtime Net :=
  {| heap := ∅; net := n; sent := []; logs := [] |}.


(** A runtime holding a logging client (at 3) over a logging transport
    (at 2) over a network transport (at 1). *)
Definition wired_runtime : Runtime unit :=
  {| heap := <[3%positive := LoggingAsyncClient 2%positive]>
               (<[2%positive := LoggingTransport_object 1%positive LoggingTransport_init]>
                  {[ 1%positive := AsyncHTTPTransport ]});
     net := tt; sent := []; logs := [] |}.

(** ** The worlds a dispatch goes through

    Where a call to [handle_async_request] can stop, and the world it
    leaves there. *)

Section Stages.

Context {I : Type}.

(** The request headers are captured; decoding the request body
    raised. *)
Definition request_headers_captured (request : Request) (w : World I) : World I :=
  {| self := set_request_headers (Headers_items (req_headers request)) (self w);
     inner := inner w;
     dispatched := dispatched w;
     logged := logged w |}.

(** The request is captured and logged and the inner transport, now in
    state [i], has been given the request. *)
Definition request_dispatched (request : Request) (c : option text) (i : I)
    (w : World I) : World I :=
  {| self := set_request_content c
               (set_request_headers (Headers_items (req_headers request)) (self w));
     inner := i;
     dispatched := dispatched w ++ [request];
     logged := ((logged w ++ [(INFO, Request_URL (url request))])
                  ++ [(INFO, Request_Headers (Headers_items (req_headers request)))])
                  ++ [(INFO, Request_Content c)] |}.

(** The response headers are captured; decoding the response body
    raised. *)
Definition response_headers_captured (response : InnerResponse) (w : World I) : World I :=
  {| self := set_response_headers (Headers_items (headers response)) (self w);
     inner := inner w;
     dispatched := dispatched w;
     logged := logged w |}.

(** The response is captured and logged. *)
Definition response_captured (response : InnerResponse) (t : text) (w : World I) : World I :=
  {| self := set_response_content (Some t)
               (set_response_headers (Headers_items (headers response)) (self w));
     inner := inner w;
     dispatched := dispatched w;
     logged := (logged w ++ [(INFO, Response_Headers (Headers_items (headers response)))])
                 ++ [(INFO, Response_Content (Some t))] |}.

End Stages.

(** * Properties *)

(** ** Codecs *)


Lemma bytes_decode_utf8 (b : bytes) (h : errors) :
  bytes_decode b "utf-8" h = utf8_decode h b.
Proof. reflexivity. Qed.




(** A strict UTF-8 decoding that gives the empty text read no byte. *)
Lemma utf8_decode_from_strict_empty (b : bytes) :
  forall st pos, utf8_decode_from Strict st pos b = Ok [] -> b = [] /\ st = None.
Proof.
  induction b as [|x rest IH]; intros st pos; simpl.
  - destruct st; simpl; [discriminate | auto].
  - intros H. exfalso.
    assert (Hemit : forall c r, emit c r = Ok [] -> False).
    { intros c [t|e]; simpl; discriminate. }
    destruct st as [p|].
    + destruct ((lo p <=? Byte.to_N x)%N && (Byte.to_N x <=? hi p)%N); [|discriminate].
      destruct (need p) as [|[|m]]; eauto.
      apply IH in H. destruct H; discriminate.
    + destruct (utf8_classify (Byte.to_N x)); simpl in H; eauto.
      * apply IH in H. destruct H; discriminate.
      * discriminate.
Qed.

Lemma utf8_decode_strict_nonempty (b : bytes) (t : text) :
  b <> [] -> utf8_decode Strict b = Ok t -> t <> [].
Proof.
  intros Hb H ->. apply utf8_decode_from_strict_empty in H. tauto.
Qed.

(** ** The dispatch, case by case *)

Section Dispatch.

Context {I : Type}.
Variable inner_handle_async_request : Request -> I -> result InnerResponse * I.

Local Notation "'handle'" := (handle_async_request inner_handle_async_request).

Lemma handle_async_request_cases (request : Request) (w : World I) :
  handle request w =
    match decode_request_content request with
    | Raise e => (Raise e, request_headers_captured request w)
    | Ok c =>
        let (r, i) := inner_handle_async_request request (inner w) in
        let w1 := request_dispatched request c i w in
        match r with
        | Raise e => (Raise e, w1)
        | Ok response =>
            match decode_response_content response with
            | Raise e => (Raise e, response_headers_captured response w1)
            | Ok t => (Ok (reemit request response), response_captured response t w1)
            end
        end
    end.
Proof.
  unfold handle_async_request, bind, lift, assign, logger_info, get_self,
    await_inner, ret; simpl.
  destruct (decode_request_content request) as [c|e]; simpl; [|reflexivity].
  destruct (inner_handle_async_request request (inner w)) as [[response|e] i];
    simpl; [|reflexivity].
  destruct (decode_response_content response) as [t|e]; reflexivity.
Qed.

(** A call that returns went through every stage. *)
Lemma handle_async_request_returns (request : Request) (w w' : World I)
    (resp : Response) :
  handle request w = (Ok resp, w') ->
  exists c response i t,
    decode_request_content request = Ok c /\
    inner_handle_async_request request (inner w) = (Ok response, i) /\
    decode_response_content response = Ok t /\
    resp = reemit request response /\
    w' = response_captured response t (request_dispatched request c i w).
Proof.
  intros H. rewrite handle_async_request_cases in H.
  destruct (decode_request_content request) as [c|e] eqn:Hc; [|discriminate].
  destruct (inner_handle_async_request request (inner w)) as [[response|e] i] eqn:Hi;
    simpl in H; [|discriminate].
  destruct (decode_response_content response) as [t|e] eqn:Ht; [|discriminate].
  inversion H; subst. exists c, response, i, t. tauto.
Qed.

End Dispatch.

(** ** Headers *)

Lemma lower_ascii_idempotent (c : ascii) : lower_ascii (lower_ascii c) = lower_ascii c.
Proof.
  destruct c as [[] [] [] [] [] [] [] []]; reflexivity.
Qed.

Lemma lower_idempotent (s : string) : lower (lower s) = lower s.
Proof.
  induction s as [|c s IH]; simpl; [reflexivity|].
  now rewrite lower_ascii_idempotent, IH.
Qed.

(** No entry of the comprehension is a content-encoding entry. *)
Lemma headers_without_encoding_keys (h : Headers) (kv : string * string) :
  In kv (headers_without_encoding h) -> lower (fst kv) <> content_encoding.
Proof.
  unfold headers_without_encoding. intros Hin Heq.
  apply filter_In in Hin. destruct Hin as [_ Hneg].
  rewrite Heq, String.eqb_refl in Hneg. discriminate.
Qed.

Lemma Headers_contains_false (name : string) (h : Headers) :
  (forall kv, In kv h -> lower (fst kv) <> lower name) ->
  Headers_contains name h = false.
Proof.
  intros Hall. unfold Headers_contains.
  destruct (existsb _ h) eqn:Hex; [|reflexivity].
  apply existsb_exists in Hex. destruct Hex as [kv [Hin Heq]].
  apply String.eqb_eq in Heq. now apply Hall in Hin.
Qed.

Lemma Headers_values_nil_get (name : string) (h : Headers) :
  Headers_contains name h = false -> Headers_get name h = None.
Proof.
  unfold Headers_contains, Headers_get, Headers_values.
  induction h as [|kv h IH]; simpl; [reflexivity|].
  destruct (String.eqb (lower (fst kv)) (lower name)); simpl; [discriminate|].
  exact IH.
Qed.

(** *** Dictionaries built from header lines *)

Lemma assoc_dict_merge (k k' v : string) (d : dict) :
  assoc k (dict_merge k' v d) =
    if String.eqb k' k
    then Some (match assoc k d with Some v0 => join_step v0 v | None => v end)
    else assoc k d.
Proof.
  induction d as [|[k0 v0] d IH]; simpl.
  - destruct (String.eqb k' k); reflexivity.
  - destruct (String.eqb k0 k') eqn:E0; simpl.
    + apply String.eqb_eq in E0. subst k0.
      destruct (String.eqb k' k); reflexivity.
    + destruct (String.eqb k0 k) eqn:E1.
      * apply String.eqb_eq in E1. subst k0.
        rewrite String.eqb_sym, E0. reflexivity.
      * exact IH.
Qed.

Lemma assoc_items_from (k : string) (h : Headers) :
  forall d,
    assoc k (fold_left (fun d kv => dict_merge (lower (fst kv)) (snd kv) d) h d) =
    merged (assoc k d) (Headers_values k h).
Proof.
  unfold Headers_values.
  induction h as [|[k0 v0] h IH]; intros d; simpl.
  - destruct (assoc k d); reflexivity.
  - rewrite IH, assoc_dict_merge.
    destruct (String.eqb (lower k0) k); simpl; [|reflexivity].
    destruct (assoc k d); reflexivity.
Qed.

(** Looking a lower-case name up in [headers.items()] reads what
    [headers.get] reads. *)
Lemma assoc_Headers_items (name : string) (h : Headers) :
  assoc (lower name) (Headers_items h) = Headers_get name h.
Proof.
  unfold Headers_items, Headers_get. rewrite assoc_items_from. simpl.
  destruct (Headers_values (lower name) h); reflexivity.
Qed.

Lemma dict_merge_keys (k v : string) (d : dict) :
  List.map fst (dict_merge k v d) =
    if in_dec String.string_dec k (List.map fst d)
    then List.map fst d
    else List.map fst d ++ [k].
Proof.
  induction d as [|[k0 v0] d IH]; simpl; [reflexivity|].
  destruct (String.eqb k0 k) eqn:E; simpl.
  - apply String.eqb_eq in E. subst k0.
    destruct (String.string_dec k k); [|congruence].
    reflexivity.
  - apply String.eqb_neq in E.
    destruct (String.string_dec k0 k); [congruence|].
    rewrite IH. destruct (in_dec String.string_dec k (List.map fst d)); reflexivity.
Qed.

Lemma dict_merge_lower_keys (k v : string) (d : dict) :
  lower k = k -> lower_keys d -> lower_keys (dict_merge k v d).
Proof.
  intros Hk [Hnd Hlow]. split.
  - rewrite dict_merge_keys.
    destruct (in_dec String.string_dec k (List.map fst d)) as [Hin|Hout]; [exact Hnd|].
    apply NoDup_app. repeat split.
    + exact Hnd.
    + intros x Hx Hxk.
      apply list_elem_of_In in Hx. apply list_elem_of_In in Hxk.
      destruct Hxk as [<-|[]]. contradiction.
    + apply NoDup_singleton.
  - clear Hnd. induction d as [|[k0 v0] d IH]; simpl.
    + constructor; [exact Hk|constructor].
    + inversion Hlow as [|? ? H0 Hrest]; subst.
      destruct (String.eqb k0 k); constructor; auto.
Qed.

Lemma Headers_items_lower_keys (h : Headers) : lower_keys (Headers_items h).
Proof.
  unfold Headers_items.
  assert (Hgen : forall d, lower_keys d ->
            lower_keys (fold_left (fun d kv => dict_merge (lower (fst kv)) (snd kv) d) h d)).
  { induction h as [|kv h IH]; intros d Hd; simpl; [exact Hd|].
    apply IH, dict_merge_lower_keys; [apply lower_idempotent | exact Hd]. }
  apply Hgen. split; constructor.
Qed.

Lemma filter_lower_keys (p : string * string -> bool) (d : dict) :
  lower_keys d -> lower_keys (List.filter p d).
Proof.
  intros [Hnd Hlow]. split.
  - induction d as [|kv d IH]; simpl; [constructor|].
    inversion Hnd as [|? ? Hout Hnd']; subst.
    inversion Hlow; subst.
    destruct (p kv); simpl; auto.
    constructor; auto.
    intros Hin. apply Hout.
    apply list_elem_of_In. apply list_elem_of_In in Hin.
    apply in_map_iff in Hin. destruct Hin as [x [Hx Hin]].
    apply filter_In in Hin. apply in_map_iff. exists x. tauto.
  - apply List.Forall_forall. intros x Hx. apply filter_In in Hx.
    rewrite List.Forall_forall in Hlow. apply Hlow. tauto.
Qed.





(** ** The dispatch: what is returned and what is captured *)

Section Exchange.

Context {I : Type}.
Variable inner_handle_async_request : Request -> I -> result InnerResponse * I.

Local Notation "'handle'" := (handle_async_request inner_handle_async_request).

(** C1.  Whenever a dispatch returns a response, that response has no
    header whose name is [content-encoding] in any capitalisation,
    whatever the headers of the inner transport's response were. *)
Theorem reemitted_response_has_no_content_encoding
    (request : Request) (w w' : World I) (resp : Response) (name : string) :
  handle request w = (Ok resp, w') ->
  lower name = content_encoding ->
  Headers_contains name (resp_headers resp) = false.
Proof.
  intros H Hname.
  apply handle_async_request_returns in H.
  destruct H as (c & response & i & t & _ & _ & _ & -> & _).
  apply Headers_contains_false. intros kv Hin. rewrite Hname.
  now apply headers_without_encoding_keys with (h := headers response).
Qed.


(** C3.  A request body that is not UTF-8 makes the dispatch raise
    [UnicodeDecodeError]: the request body is decoded with the strict
    handler.  The same byte as a response body is replaced by U+FFFD. *)
Theorem undecodable_request_body_raises (w : World I) :
  handle undecodable_request w =
    (Raise (UnicodeDecodeError "utf-8" 0 "invalid start byte"),
     request_headers_captured undecodable_request w)
  /\ bytes_decode (req_content undecodable_request) "utf-8" Replace
     = Ok [REPLACEMENT_CHARACTER].
Proof.
  split; [|reflexivity].
  rewrite handle_async_request_cases. reflexivity.
Qed.

(** C4.  For a request with a non-empty body, once the dispatch has
    returned, [request_content] is the UTF-8 decoding of the body
    bytes. *)
Theorem request_content_is_utf8_decoding
    (request : Request) (w w' : World I) (resp : Response) :
  req_content request <> [] ->
  handle request w = (Ok resp, w') ->
  exists t,
    utf8_decode Strict (req_content request) = Ok t /\
    request_content (self w') = Some t.
Proof.
  intros Hbody H.
  apply handle_async_request_returns in H.
  destruct H as (c & response & i & t & Hc & _ & _ & _ & ->).
  unfold decode_request_content in Hc.
  destruct (req_content request) as [|b rest] eqn:Hb; [congruence|].
  simpl truthy in Hc. cbv iota in Hc.
  rewrite bytes_decode_utf8 in Hc.
  destruct (utf8_decode Strict (b :: rest)) as [t0|e]; [|discriminate].
  inversion Hc; subst c. exists t0. split; reflexivity.
Qed.

(** C5.  For a request without a body, after the dispatch (however it
    ends) [request_content] is [None], which is not the empty text. *)
Theorem request_content_absent_without_body (request : Request) (w : World I) :
  req_content request = [] ->
  request_content (self (snd (handle request w))) = None /\
  request_content (self (snd (handle request w))) <> Some [].
Proof.
  intros Hbody.
  assert (Hnone : request_content (self (snd (handle request w))) = None).
  { rewrite handle_async_request_cases.
    unfold decode_request_content. rewrite Hbody. simpl.
    destruct (inner_handle_async_request request (inner w)) as [[response|e] i];
      simpl; [|reflexivity].
    destruct (decode_response_content response); reflexivity. }
  rewrite Hnone. split; [reflexivity|discriminate].
Qed.

(** C10.  A body of zero bytes is captured as [None], as a request
    built without a body is, although decoding zero bytes would give
    the empty text. *)
Theorem zero_length_body_captured_as_absent
    (u : string) (h : Headers) (w : World I) :
  request_content (self (snd (handle (post_request u h []) w))) = None /\
  handle (post_request u h []) w = handle (get_request u h) w /\
  bytes_decode [] "utf-8" Strict = Ok [].
Proof.
  split; [|split; reflexivity].
  rewrite handle_async_request_cases. simpl.
  destruct (inner_handle_async_request (post_request u h []) (inner w))
    as [[response|e] i]; simpl; [|reflexivity].
  destruct (decode_response_content response); reflexivity.
Qed.


(** C7, as amended.  After a dispatch that returns a response, the four
    captured fields are given by that call's request and by the inner
    transport's response alone; nothing of what was captured before
    remains. *)
Theorem returned_call_overwrites_captured_fields
    (request : Request) (w w' : World I) (resp : Response) :
  handle request w = (Ok resp, w') ->
  exists c response i t,
    decode_request_content request = Ok c /\
    inner_handle_async_request request (inner w) = (Ok response, i) /\
    decode_response_content response = Ok t /\
    self w' =
      {| request_headers := Headers_items (req_headers request);
         request_content := c;
         response_headers := Headers_items (headers response);
         response_content := Some t |}.
Proof.
  intros H.
  apply handle_async_request_returns in H.
  destruct H as (c & response & i & t & Hc & Hi & Ht & _ & ->).
  exists c, response, i, t. repeat split; assumption.
Qed.


End Exchange.

(** ** Concrete exchanges *)

(** The exchange of the specification's first scenario: status 200,
    headers content-encoding and x-id, body [hello]. *)
Example gzip_exchange :
  handle_async_request (constant_transport gzip_response) chat_request (new_world tt) =
    (Ok {| resp_status_code := 200;
           resp_headers := [("x-id", "42")];
           resp_content := bytes_of_string "hello";
           resp_request := chat_request;
           resp_extensions := [("http_version", bytes_of_string "HTTP/1.1")] |},
     response_captured gzip_response (text_of_string "hello")
       (request_dispatched chat_request (Some (text_of_string "{}")) tt (new_world tt))).
Proof. reflexivity. Qed.

(** A malformed byte in a response body becomes U+FFFD where it stood. *)
Example malformed_response_body_is_replaced :
  decode_response_content malformed_response = Ok [104; 0xFFFD; 105]%N.
Proof. reflexivity. Qed.

Lemma reemitted_response_has_no_content_encoding_witness :
  Headers_contains "Content-Encoding" (headers gzip_response) = true /\
  Headers_contains "Content-Encoding"
    (resp_headers (reemit chat_request gzip_response)) = false.
Proof.
  split; [reflexivity|].
  apply (reemitted_response_has_no_content_encoding
           (constant_transport gzip_response) chat_request (new_world tt)
           (snd (handle_async_request (constant_transport gzip_response)
                   chat_request (new_world tt)))
           (reemit chat_request gzip_response) "Content-Encoding");
    reflexivity.
Defined.


Lemma request_content_is_utf8_decoding_witness :
  exists t,
    utf8_decode Strict (req_content chat_request) = Ok t /\
    request_content
      (self (snd (handle_async_request (constant_transport gzip_response)
                    chat_request (new_world tt)))) = Some t.
Proof.
  apply (request_content_is_utf8_decoding
           (constant_transport gzip_response) chat_request (new_world tt)
           (snd (handle_async_request (constant_transport gzip_response)
                   chat_request (new_world tt)))
           (reemit chat_request gzip_response)).
  - discriminate.
  - reflexivity.
Defined.

Lemma request_content_absent_without_body_witness :
  request_content
    (self (snd (handle_async_request (failing_transport connect_error)
                  (get_request "https://example.openai.azure.com/openai/models" [])
                  (new_world tt)))) = None /\
  request_content
    (self (snd (handle_async_request (failing_transport connect_error)
                  (get_request "https://example.openai.azure.com/openai/models" [])
                  (new_world tt)))) <> Some [].
Proof.
  apply (request_content_absent_without_body (failing_transport connect_error)
           (get_request "https://example.openai.azure.com/openai/models" [])
           (new_world tt)).
  reflexivity.
Defined.



(** C7: a dispatch that fails leaves the response fields of the exchange
    before it in place, next to the request fields of its own. *)
Lemma failed_call_keeps_earlier_response :
  let w1 := snd (handle_async_request scripted_transport chat_request
                   (new_world answered_then_failing)) in
  let out2 := handle_async_request scripted_transport
                (get_request "https://example.openai.azure.com/openai/models"
                   [("Accept", "*/*")]) w1 in
  fst out2 = Raise connect_error /\
  request_headers (self (snd out2)) = [("accept", "*/*")] /\
  request_content (self (snd out2)) = None /\
  response_headers (self (snd out2)) = [("content-encoding", "gzip"); ("x-id", "42")] /\
  response_content (self (snd out2)) = Some (text_of_string "hello").
Proof. repeat split. Qed.

Lemma returned_call_overwrites_captured_fields_witness :
  exists c response i t,
    decode_request_content chat_request = Ok c /\
    scripted_transport chat_request (inner world_after_an_exchange) = (Ok response, i) /\
    decode_response_content response = Ok t /\
    self (snd (handle_async_request scripted_transport chat_request
                 world_after_an_exchange)) =
      {| request_headers := Headers_items (req_headers chat_request);
         request_content := c;
         response_headers := Headers_items (headers response);
         response_content := Some t |}.
Proof.
  apply (returned_call_overwrites_captured_fields scripted_transport chat_request
           world_after_an_exchange
           (snd (handle_async_request scripted_transport chat_request
                   world_after_an_exchange))
           (reemit chat_request malformed_response)).
  reflexivity.
Defined.

(** ** The client factory *)

Section Factory.

Context {Net : Type}.

Lemma alloc_is_fresh (o : object) (rt : Runtime Net) :
  heap rt !! fst (alloc o rt) = None.
Proof.
  unfold alloc; simpl. apply not_elem_of_dom, is_fresh.
Qed.

(** C9.  [async_clients] returns, at once, the pair of a new SDK client
    and a new logging client; the HTTP client installed in the SDK
    client is the logging client of the pair; the logging client has a
    logging transport with nothing captured, over a network transport;
    the objects there were before are as they were, and nothing is put
    on the network. *)
Theorem async_clients_returns_client_and_its_http_client
    (endpoint key api_version : string) (rt : Runtime Net) :
  let out := async_clients endpoint key api_version rt in
  let client := fst (fst out) in
  let logging_async_client := snd (fst out) in
  let rt' := snd out in
  heap rt' !! client
    = Some (AsyncAzureOpenAI endpoint key api_version logging_async_client) /\
  (exists lt it,
      heap rt' !! logging_async_client = Some (LoggingAsyncClient lt) /\
      heap rt' !! lt = Some (LoggingTransport_object it LoggingTransport_init) /\
      heap rt' !! it = Some AsyncHTTPTransport) /\
  heap rt !! client = None /\
  heap rt !! logging_async_client = None /\
  client <> logging_async_client /\
  heap rt ⊆ heap rt' /\
  sent rt' = sent rt /\ net rt' = net rt /\ logs rt' = logs rt.
Proof.
  unfold async_clients, LoggingAsyncClient_new, LoggingTransport_new,
    or_AsyncHTTPTransport, alloc; simpl.
  set (h0 := heap rt).
  set (l1 := fresh (dom h0)).
  set (h1 := <[l1 := AsyncHTTPTransport]> h0).
  set (l2 := fresh (dom h1)).
  set (h2 := <[l2 := LoggingTransport_object l1 LoggingTransport_init]> h1).
  set (l3 := fresh (dom h2)).
  set (h3 := <[l3 := LoggingAsyncClient l2]> h2).
  set (l4 := fresh (dom h3)).
  assert (F1 : l1 ∉ dom h0) by apply is_fresh.
  assert (F2 : l2 ∉ dom h1) by apply is_fresh.
  assert (F3 : l3 ∉ dom h2) by apply is_fresh.
  assert (F4 : l4 ∉ dom h3) by apply is_fresh.
  unfold h3 in F4. unfold h2 in F3, F4. unfold h1 in F2, F3, F4.
  rewrite !dom_insert_L in F2, F3, F4.
  assert (l2 <> l1) by set_solver.
  assert (l3 <> l1) by set_solver.
  assert (l3 <> l2) by set_solver.
  assert (l4 <> l1) by set_solver.
  assert (l4 <> l2) by set_solver.
  assert (l4 <> l3) by set_solver.
  assert (h0 !! l3 = None) by (apply not_elem_of_dom; set_solver).
  assert (h0 !! l4 = None) by (apply not_elem_of_dom; set_solver).
  assert (h0 !! l2 = None) by (apply not_elem_of_dom; set_solver).
  assert (h0 !! l1 = None) by (apply not_elem_of_dom; set_solver).
  repeat split; try assumption.
  - apply lookup_insert_eq.
  - exists l2, l1. unfold h3, h2, h1. repeat split.
    + rewrite lookup_insert_ne by congruence. apply lookup_insert_eq.
    + rewrite !lookup_insert_ne by congruence. apply lookup_insert_eq.
    + rewrite !lookup_insert_ne by congruence. apply lookup_insert_eq.
  - unfold h3, h2, h1.
    repeat (etrans; [|apply insert_subseteq]); [reflexivity|..].
    all: repeat (rewrite lookup_insert_ne by congruence); assumption.
Qed.

End Factory.

(** The pair of [async_clients] at work: a request sent through the
    logging client reaches the network once, and the client's properties
    then read the exchange. *)
Example factory_then_send :
  let out := async_clients "https://example.openai.azure.com" "secret" "2024-02-01"
               (empty_runtime tt) in
  let logging_async_client := snd (fst out) in
  sent (snd out) = [] /\
  exists resp rt,
    send (constant_transport gzip_response) logging_async_client chat_request (snd out)
      = Some (Ok resp, rt) /\
    sent rt = [chat_request] /\
    client_request_content logging_async_client rt = Some (Some (text_of_string "{}")) /\
    client_response_content logging_async_client rt = Some (Some (text_of_string "hello")) /\
    Headers_contains "content-encoding" (resp_headers resp) = false.
Proof.
  split; [reflexivity|].
  eexists _, _. split; [vm_compute; reflexivity|].
  vm_compute. repeat split.
Qed.

(** * Further properties of the transport *)

(** ** Strict and replacing decoding on well-formed input *)

Lemma emit_ok (c : codepoint) (r : result text) (t : text) :
  emit c r = Ok t -> exists t', r = Ok t' /\ t = c :: t'.
Proof.
  destruct r as [t'|e]; simpl; [|discriminate].
  intros H. inversion H. eauto.
Qed.

(** Where the strict handler decodes a text, the replace handler decodes
    the same text. *)
Lemma utf8_decode_from_strict_replace (b : bytes) :
  forall st pos t,
    utf8_decode_from Strict st pos b = Ok t ->
    utf8_decode_from Replace st pos b = Ok t.
Proof.
  induction b as [|x rest IH]; intros st pos t; simpl.
  - destruct st; simpl; [discriminate|auto].
  - destruct st as [p|].
    + destruct ((lo p <=? Byte.to_N x)%N && (Byte.to_N x <=? hi p)%N); [|discriminate].
      destruct (need p) as [|[|m]].
      * intros H. apply emit_ok in H. destruct H as (t' & H & ->).
        now rewrite (IH _ _ _ H).
      * intros H. apply emit_ok in H. destruct H as (t' & H & ->).
        now rewrite (IH _ _ _ H).
      * apply IH.
    + destruct (utf8_classify (Byte.to_N x)); simpl.
      * intros H. apply emit_ok in H. destruct H as (t' & H & ->).
        now rewrite (IH _ _ _ H).
      * apply IH.
      * discriminate.
Qed.

Lemma utf8_decode_strict_replace (b : bytes) (t : text) :
  utf8_decode Strict b = Ok t -> utf8_decode Replace b = Ok t.
Proof. apply utf8_decode_from_strict_replace. Qed.

Section Capture.

Context {I : Type}.
Variable inner_handle_async_request : Request -> I -> result InnerResponse * I.

Local Notation "'handle'" := (handle_async_request inner_handle_async_request).

(** The request headers are captured first, so they are those of the
    request however the call ends. *)
Lemma request_headers_after (request : Request) (w : World I) :
  request_headers (self (snd (handle request w))) = Headers_items (req_headers request).
Proof.
  rewrite handle_async_request_cases.
  destruct (decode_request_content request) as [c|e]; [|reflexivity].
  destruct (inner_handle_async_request request (inner w)) as [[response|e] i];
    simpl; [|reflexivity].
  destruct (decode_response_content response); reflexivity.
Qed.

(** X1.  However a dispatch ends, [request_headers] then holds the
    headers of its request: lower-case, unique names, and under each name
    what [request.headers.get] gives for it. *)
Theorem request_headers_read_as_request
    (request : Request) (w : World I) (name : string) :
  lower_keys (request_headers (self (snd (handle request w)))) /\
  assoc (lower name) (request_headers (self (snd (handle request w))))
    = Headers_get name (req_headers request).
Proof.
  rewrite request_headers_after. split.
  - apply Headers_items_lower_keys.
  - apply assoc_Headers_items.
Qed.


(** X3.  A dispatch only appends to the log.  It gives the logger nothing
    when the request body fails to decode, the three request records when
    the inner transport raises or the response body fails to decode, and
    the three request records followed by the two response records when
    it returns. *)
Theorem logged_records_by_outcome (request : Request) (w : World I) :
  logged (snd (handle request w)) =
    logged w ++
    match decode_request_content request with
    | Raise _ => []
    | Ok c =>
        request_records request c ++
        match fst (inner_handle_async_request request (inner w)) with
        | Raise _ => []
        | Ok response =>
            match decode_response_content response with
            | Raise _ => []
            | Ok t => response_records response t
            end
        end
    end.
Proof.
  rewrite handle_async_request_cases.
  destruct (decode_request_content request) as [c|e]; simpl.
  - destruct (inner_handle_async_request request (inner w)) as [[response|e] i]; simpl.
    + destruct (decode_response_content response) as [t|e]; simpl;
        unfold request_records, response_records;
        rewrite <- ?app_assoc; reflexivity.
    + unfold request_records. rewrite <- ?app_assoc. reflexivity.
  - now rewrite app_nil_r.
Qed.


(** X5.  After a dispatch that returns, [request_content] is [None]
    exactly when the request body is empty, and it is never the empty
    text. *)
Theorem request_content_none_iff_empty_body
    (request : Request) (w w' : World I) (resp : Response) :
  handle request w = (Ok resp, w') ->
  (request_content (self w') = None <-> req_content request = []) /\
  request_content (self w') <> Some [].
Proof.
  intros H.
  apply handle_async_request_returns in H.
  destruct H as (c & response & i & t & Hc & _ & _ & _ & ->). simpl.
  unfold decode_request_content in Hc.
  destruct (req_content request) as [|b rest] eqn:Hb; simpl in Hc.
  - inversion Hc. split; [tauto|discriminate].
  - rewrite bytes_decode_utf8 in Hc.
    destruct (utf8_decode Strict (b :: rest)) as [t0|e] eqn:Hd; [|discriminate].
    inversion Hc; subst c. split.
    + split; discriminate.
    + intros Heq. inversion Heq; subst t0.
      now apply (utf8_decode_strict_nonempty (b :: rest) []).
Qed.

(** X6.  When the inner transport answers with the bytes of the request
    body and declares UTF-8 or nothing, the two captured texts agree:
    the response body is decoded with the replace handler, which on bytes
    the strict handler accepts gives the same text. *)
Theorem echoed_body_is_captured_alike
    (request : Request) (w w' : World I) (resp : Response)
    (response : InnerResponse) (i : I) :
  handle request w = (Ok resp, w') ->
  inner_handle_async_request request (inner w) = (Ok response, i) ->
  req_content request <> [] ->
  content response = req_content request ->
  codecs_lookup (or_default (encoding response) "utf-8") = Some UTF_8 ->
  response_content (self w') = request_content (self w').
Proof.
  intros H Hi Hbody Hecho Hcd.
  apply handle_async_request_returns in H.
  destruct H as (c & response' & i' & t & Hc & Hi' & Ht & _ & ->).
  rewrite Hi in Hi'. inversion Hi'; subst response' i'. simpl.
  unfold decode_request_content in Hc.
  destruct (req_content request) as [|b rest] eqn:Hb; [congruence|].
  simpl truthy in Hc. cbv iota in Hc. rewrite bytes_decode_utf8 in Hc.
  destruct (utf8_decode Strict (b :: rest)) as [t0|e] eqn:Hd; [|discriminate].
  inversion Hc; subst c.
  unfold decode_response_content, bytes_decode in Ht.
  rewrite Hcd, Hecho in Ht. simpl in Ht.
  rewrite (utf8_decode_strict_replace _ _ Hd) in Ht. congruence.
Qed.

End Capture.

(** ** The headers handed back and the headers captured *)




Lemma dict_merge_new_key (k v : string) (d : dict) :
  ~ In k (List.map fst d) -> dict_merge k v d = d ++ [(k, v)].
Proof.
  induction d as [|[k0 v0] d IH]; simpl; intros Hout; [reflexivity|].
  destruct (String.eqb k0 k) eqn:E.
  - apply String.eqb_eq in E. tauto.
  - rewrite IH by tauto. reflexivity.
Qed.

Lemma Headers_items_from_well_formed (d : dict) :
  forall seen,
    List.NoDup (List.map fst (seen ++ d)) ->
    List.Forall (fun kv => lower (fst kv) = fst kv) d ->
    fold_left (fun d kv => dict_merge (lower (fst kv)) (snd kv) d) d seen = seen ++ d.
Proof.
  induction d as [|[k v] d IH]; intros seen Hnd Hlow; simpl.
  - now rewrite app_nil_r.
  - inversion Hlow as [|? ? Hk Hrest]; subst. simpl in Hk. rewrite Hk.
    assert (Hout : ~ In k (List.map fst seen)).
    { rewrite List.map_app in Hnd. simpl in Hnd.
      apply List.NoDup_remove_2 in Hnd. rewrite List.in_app_iff in Hnd. tauto. }
    rewrite (dict_merge_new_key k v seen Hout).
    rewrite IH.
    + now rewrite <- app_assoc.
    + now rewrite <- app_assoc.
    + exact Hrest.
Qed.

(** The items of headers made from a well-formed dictionary are the
    dictionary. *)
Lemma Headers_items_of_dict (d : dict) :
  lower_keys d -> Headers_items (Headers_of_dict d) = d.
Proof.
  intros [Hnd Hlow]. unfold Headers_items, Headers_of_dict.
  apply NoDup_ListNoDup in Hnd.
  now rewrite (Headers_items_from_well_formed d []).
Qed.

(** X8.  Taking content-encoding out of headers that were handed back
    changes nothing: a logging transport over a logging transport hands
    back the headers of the inner one. *)
Theorem headers_without_encoding_idempotent (h : Headers) :
  headers_without_encoding (Headers_of_dict (headers_without_encoding h))
    = headers_without_encoding h.
Proof.
  unfold headers_without_encoding at 1.
  rewrite Headers_items_of_dict
    by (apply filter_lower_keys, Headers_items_lower_keys).
  unfold headers_without_encoding.
  induction (Headers_items h) as [|kv d IH]; simpl; [reflexivity|].
  destruct (negb (String.eqb (lower (fst kv)) content_encoding)) eqn:E; simpl.
  - rewrite E, IH. reflexivity.
  - exact IH.
Qed.

Section Returned.

Context {I : Type}.
Variable inner_handle_async_request : Request -> I -> result InnerResponse * I.

Local Notation "'handle'" := (handle_async_request inner_handle_async_request).


End Returned.




Lemma request_content_none_iff_empty_body_witness :
  (request_content
     (self (snd (handle_async_request (constant_transport gzip_response)
                   chat_request (new_world tt)))) = None
   <-> req_content chat_request = []) /\
  request_content
    (self (snd (handle_async_request (constant_transport gzip_response)
                  chat_request (new_world tt)))) <> Some [].
Proof.
  apply (request_content_none_iff_empty_body
           (constant_transport gzip_response) chat_request (new_world tt)
           (snd (handle_async_request (constant_transport gzip_response)
                   chat_request (new_world tt)))
           (reemit chat_request gzip_response)).
  reflexivity.
Defined.

Lemma echoed_body_is_captured_alike_witness :
  response_content
    (self (snd (handle_async_request echo_transport chat_request (new_world tt))))
  = request_content
      (self (snd (handle_async_request echo_transport chat_request (new_world tt)))).
Proof.
  apply (echoed_body_is_captured_alike echo_transport chat_request (new_world tt)
           (snd (handle_async_request echo_transport chat_request (new_world tt)))
           (reemit chat_request (echo_response chat_request))
           (echo_response chat_request) tt).
  - reflexivity.
  - reflexivity.
  - discriminate.
  - reflexivity.
  - reflexivity.
Defined.

(** ** The logging client and its transport *)

Section Clients.

Context {Net : Type}.


(** X10.  On a logging client just built, over a given transport or over
    a network transport of its own, the four properties read an empty
    exchange: no headers and no content, for the request and for the
    response. *)
Theorem new_logging_client_has_nothing_captured
    (transport : option loc) (rt : Runtime Net) :
  let out := LoggingAsyncClient_new transport rt in
  client_request_headers (fst out) (snd out) = Some [] /\
  client_request_content (fst out) (snd out) = Some None /\
  client_response_headers (fst out) (snd out) = Some [] /\
  client_response_content (fst out) (snd out) = Some None.
Proof.
  assert (Hcap : captured_of (fst (LoggingAsyncClient_new transport rt))
                   (snd (LoggingAsyncClient_new transport rt))
                 = Some LoggingTransport_init).
  { unfold captured_of, LoggingAsyncClient_new, LoggingTransport_new,
      or_AsyncHTTPTransport, alloc.
    destruct transport as [t|]; simpl.
    - set (h0 := heap rt).
      set (l2 := fresh (dom h0)).
      set (h2 := <[l2 := LoggingTransport_object t LoggingTransport_init]> h0).
      set (l3 := fresh (dom h2)).
      assert (F3 : l3 ∉ dom h2) by apply is_fresh.
      assert (Hd : dom h2 = {[l2]} ∪ dom h0) by apply dom_insert_L.
      rewrite Hd in F3. clearbody l2 l3.
      assert (l3 <> l2)
        by (intros E; apply F3; rewrite E; apply elem_of_union_l, elem_of_singleton;
            reflexivity).
      rewrite lookup_insert_eq.
      rewrite lookup_insert_ne by congruence.
      unfold h2. rewrite lookup_insert_eq. reflexivity.
    - set (h0 := heap rt).
      set (l1 := fresh (dom h0)).
      set (h1 := <[l1 := AsyncHTTPTransport]> h0).
      set (l2 := fresh (dom h1)).
      set (h2 := <[l2 := LoggingTransport_object l1 LoggingTransport_init]> h1).
      set (l3 := fresh (dom h2)).
      assert (F3 : l3 ∉ dom h2) by apply is_fresh.
      assert (Hd : dom h2 = {[l2]} ∪ dom h1) by apply dom_insert_L.
      rewrite Hd in F3. clearbody l2 l3.
      assert (l3 <> l2)
        by (intros E; apply F3; rewrite E; apply elem_of_union_l, elem_of_singleton;
            reflexivity).
      rewrite lookup_insert_eq.
      rewrite lookup_insert_ne by congruence.
      unfold h2. rewrite lookup_insert_eq. reflexivity. }
  intros out. subst out.
  unfold client_request_headers, client_request_content,
    client_response_headers, client_response_content.
  rewrite Hcap. repeat split.
Qed.

End Clients.


(** ** Requests through the logging client *)

Section Sending.

Context {Net : Type}.
Variable network_send : Request -> Net -> result InnerResponse * Net.

(** X11.  For a logging client whose logging transport is over a network
    transport, a request sent through the client is one dispatch of the
    logging transport, from what the transport had captured so far; after
    it the client's four properties read the transport's fields as that
    dispatch left them, and the requests on the network are those the
    dispatch handed on. *)
Theorem send_updates_client_properties
    (client lt it : loc) (c : LoggingTransport) (request : Request)
    (rt : Runtime Net) :
  heap rt !! client = Some (LoggingAsyncClient lt) ->
  heap rt !! lt = Some (LoggingTransport_object it c) ->
  heap rt !! it = Some AsyncHTTPTransport ->
  let run := handle_async_request network_send request
               {| self := c; inner := net rt;
                  dispatched := sent rt; logged := logs rt |} in
  exists rt',
    send network_send client request rt = Some (fst run, rt') /\
    client_request_headers client rt' = Some (request_headers (self (snd run))) /\
    client_request_content client rt' = Some (request_content (self (snd run))) /\
    client_response_headers client rt' = Some (response_headers (self (snd run))) /\
    client_response_content client rt' = Some (response_content (self (snd run))) /\
    sent rt' = dispatched (snd run) /\
    heap rt' !! client = Some (LoggingAsyncClient lt) /\
    heap rt' !! it = Some AsyncHTTPTransport.
Proof.
  intros Hc Hl Hi run.
  assert (client <> lt) by congruence.
  assert (it <> lt) by congruence.
  unfold send. rewrite Hc, Hl, Hi. fold run.
  destruct run as [out w'] eqn:Hrun. simpl.
  eexists. split; [reflexivity|].
  unfold client_request_headers, client_request_content,
    client_response_headers, client_response_content, captured_of; simpl.
  rewrite lookup_insert_ne by congruence. rewrite Hc.
  rewrite lookup_insert_eq. simpl.
  rewrite lookup_insert_ne by congruence.
  repeat split; assumption.
Qed.

(** The heap [async_clients] leaves: four new objects, one on top of the
    other. *)
Lemma async_clients_objects (endpoint key api_version : string) (rt : Runtime Net) :
  exists l1 l2 l3 l4 h,
    async_clients endpoint key api_version rt
      = ((l4, l3), {| heap := h; net := net rt; sent := sent rt; logs := logs rt |}) /\
    h !! l1 = Some AsyncHTTPTransport /\
    h !! l2 = Some (LoggingTransport_object l1 LoggingTransport_init) /\
    h !! l3 = Some (LoggingAsyncClient l2) /\
    h !! l4 = Some (AsyncAzureOpenAI endpoint key api_version l3).
Proof.
  unfold async_clients, LoggingAsyncClient_new, LoggingTransport_new,
    or_AsyncHTTPTransport, alloc; simpl.
  set (h0 := heap rt).
  set (l1 := fresh (dom h0)).
  set (h1 := <[l1 := AsyncHTTPTransport]> h0).
  set (l2 := fresh (dom h1)).
  set (h2 := <[l2 := LoggingTransport_object l1 LoggingTransport_init]> h1).
  set (l3 := fresh (dom h2)).
  set (h3 := <[l3 := LoggingAsyncClient l2]> h2).
  set (l4 := fresh (dom h3)).
  assert (F2 : h1 !! l2 = None) by apply not_elem_of_dom, is_fresh.
  assert (F3 : h2 !! l3 = None) by apply not_elem_of_dom, is_fresh.
  assert (F4 : h3 !! l4 = None) by apply not_elem_of_dom, is_fresh.
  clearbody l1 l2 l3 l4.
  assert (L1 : h1 !! l1 = Some AsyncHTTPTransport) by apply lookup_insert_eq.
  assert (l2 <> l1) by congruence.
  assert (L12 : h2 !! l1 = Some AsyncHTTPTransport)
    by (unfold h2; rewrite lookup_insert_ne by congruence; exact L1).
  assert (L2 : h2 !! l2 = Some (LoggingTransport_object l1 LoggingTransport_init))
    by apply lookup_insert_eq.
  assert (l3 <> l1) by congruence.
  assert (l3 <> l2) by congruence.
  assert (L13 : h3 !! l1 = Some AsyncHTTPTransport)
    by (unfold h3; rewrite lookup_insert_ne by congruence; exact L12).
  assert (L23 : h3 !! l2 = Some (LoggingTransport_object l1 LoggingTransport_init))
    by (unfold h3; rewrite lookup_insert_ne by congruence; exact L2).
  assert (L3 : h3 !! l3 = Some (LoggingAsyncClient l2)) by apply lookup_insert_eq.
  assert (l4 <> l1) by congruence.
  assert (l4 <> l2) by congruence.
  assert (l4 <> l3) by congruence.
  exists l1, l2, l3, l4,
    (<[l4 := AsyncAzureOpenAI endpoint key api_version l3]> h3).
  split; [reflexivity|].
  repeat split.
  - rewrite lookup_insert_ne by congruence. exact L13.
  - rewrite lookup_insert_ne by congruence. exact L23.
  - rewrite lookup_insert_ne by congruence. exact L3.
  - apply lookup_insert_eq.
Qed.

(** X12.  The pair [async_clients] returns is ready for use: a request
    sent through its logging client is one dispatch of a logging transport
    that has captured nothing yet, over the network; afterwards the
    logging client's properties read that exchange and the SDK client
    still has the logging client as its HTTP client. *)
Theorem factory_client_dispatches_through_logging_transport
    (endpoint key api_version : string) (request : Request) (rt : Runtime Net) :
  let out := async_clients endpoint key api_version rt in
  let client := fst (fst out) in
  let logging_async_client := snd (fst out) in
  let run := handle_async_request network_send request
               {| self := LoggingTransport_init; inner := net rt;
                  dispatched := sent rt; logged := logs rt |} in
  exists rt',
    send network_send logging_async_client request (snd out) = Some (fst run, rt') /\
    captured_of logging_async_client rt' = Some (self (snd run)) /\
    sent rt' = dispatched (snd run) /\
    heap rt' !! client
      = Some (AsyncAzureOpenAI endpoint key api_version logging_async_client).
Proof.
  destruct (async_clients_objects endpoint key api_version rt)
    as (l1 & l2 & l3 & l4 & h & -> & H1 & H2 & H3 & H4).
  simpl.
  assert (l4 <> l2) by congruence.
  assert (l3 <> l2) by congruence.
  unfold send; simpl. rewrite H3, H2, H1.
  destruct (handle_async_request network_send request _) as [out w'].
  simpl. eexists. split; [reflexivity|].
  unfold captured_of; simpl.
  rewrite lookup_insert_ne by congruence. rewrite H3.
  rewrite lookup_insert_eq.
  rewrite lookup_insert_ne by congruence.
  repeat split. exact H4.
Qed.

End Sending.

Lemma send_updates_client_properties_witness :
  let run := handle_async_request (constant_transport gzip_response) chat_request
               {| self := LoggingTransport_init; inner := net wired_runtime;
                  dispatched := sent wired_runtime; logged := logs wired_runtime |} in
  exists rt',
    send (constant_transport gzip_response) 3%positive chat_request wired_runtime
      = Some (fst run, rt') /\
    client_request_headers 3%positive rt' = Some (request_headers (self (snd run))) /\
    client_request_content 3%positive rt' = Some (request_content (self (snd run))) /\
    client_response_headers 3%positive rt' = Some (response_headers (self (snd run))) /\
    client_response_content 3%positive rt' = Some (response_content (self (snd run))) /\
    sent rt' = dispatched (snd run) /\
    heap rt' !! 3%positive = Some (LoggingAsyncClient 2%positive) /\
    heap rt' !! 1%positive = Some AsyncHTTPTransport.
Proof.
  apply (send_updates_client_properties (constant_transport gzip_response)
           3%positive 2%positive 1%positive LoggingTransport_init chat_request
           wired_runtime); reflexivity.
Defined.

Section Lost.

Context {I : Type}.
Variable inner_handle_async_request : Request -> I -> result InnerResponse * I.

Local Notation "'handle'" := (handle_async_request inner_handle_async_request).

(** X13.  The response body is decoded after the inner transport has
    answered: when that decoding raises, the dispatch raises the same
    exception although the request has been handed to the inner
    transport, whose new state is kept; the response headers have been
    captured, [response_content] has not, and the response goes to
    nobody. *)
Theorem undecodable_response_is_lost_after_dispatch
    (request : Request) (w : World I) (c : option text)
    (response : InnerResponse) (i : I) (e : exn) :
  decode_request_content request = Ok c ->
  inner_handle_async_request request (inner w) = (Ok response, i) ->
  decode_response_content response = Raise e ->
  fst (handle request w) = Raise e /\
  dispatched (snd (handle request w)) = dispatched w ++ [request] /\
  inner (snd (handle request w)) = i /\
  response_headers (self (snd (handle request w))) = Headers_items (headers response) /\
  response_content (self (snd (handle request w))) = response_content (self w) /\
  logged (snd (handle request w)) = logged w ++ request_records request c.
Proof.
  intros Hc Hi He.
  rewrite handle_async_request_cases, Hc, Hi. simpl. rewrite He. simpl.
  unfold request_records. rewrite <- !app_assoc. repeat split.
Qed.

End Lost.

Lemma undecodable_response_is_lost_after_dispatch_witness :
  let out := handle_async_request (constant_transport hex_charset_response)
               chat_request (new_world tt) in
  fst out = Raise (LookupError "hex") /\
  dispatched (snd out) = dispatched (new_world tt) ++ [chat_request] /\
  inner (snd out) = tt /\
  response_headers (self (snd out)) = Headers_items (headers hex_charset_response) /\
  response_content (self (snd out)) = response_content (self (new_world tt)) /\
  logged (snd out)
    = logged (new_world tt) ++ request_records chat_request (Some (text_of_string "{}")).
Proof.
  apply (undecodable_response_is_lost_after_dispatch
           (constant_transport hex_charset_response) chat_request (new_world tt)
           (Some (text_of_string "{}")) hex_charset_response tt (LookupError "hex"));
    reflexivity.
Defined.
